(** * examples/models/llama2/eval_llama_lib.py

    A shallow embedding of the llama2 evaluation glue: the prefill buffer
    builder [setup_cache_padded_seq_input_pos_max_seq_length_for_prefill],
    the harness adapter [GPTFastEvalWrapper] and the driver [eval].

    Python objects that can be aliased or mutated (tensors, modules, lists)
    live in a store addressed by locations; functions of the source are
    computations in a state-and-exception monad over that store. *)

From stdpp Require Import base numbers list strings.

Local Open Scope Z_scope.

(** ** Python values, exceptions and the object store *)

Inductive exn :=
  | Exception (msg : string)
  | RuntimeError (msg : string)
  | TypeError (msg : string)
  | ValueError (msg : string)
  | AttributeError (msg : string).

(** The integer element types of torch. *)
Inductive dtype := torch_uint8 | torch_int8 | torch_int16 | torch_int32 | torch_int64.

Inductive device := cpu | cuda.

(** A tensor of shape (T): its T elements, element type and device. *)
Record Tensor := mkTensor {
  data : list Z;
  t_dtype : dtype;
  t_device : device
}.

(** What the source could reach of a torch.nn.Module: the key-value caches
    that [model.setup_caches(max_batch_size, max_seq_length)] would create,
    [None] as long as they were never set up. *)
Record nn_Module := mk_nn_Module {
  kv_caches : option (Z * Z)
}.

Inductive object :=
  | ObjTensor (t : Tensor)
  | ObjModule (m : nn_Module)
  | ObjList (l : list string).

Definition loc := nat.

(** Objects are never freed: a location is an index into the list of all
    objects allocated so far. *)
Abbreviation store := (list object).

(** A computation reads and updates the store and either raises or returns;
    updates made before an exception persist, as in Python. *)
Definition Py (A : Type) : Type := store → store * (exn + A).

Definition py_ret {A} (a : A) : Py A := λ σ, (σ, inr a).

Definition py_bind {A B} (f : A → Py B) (m : Py A) : Py B :=
  λ σ, match m σ with
       | (σ', inr a) => f a σ'
       | (σ', inl e) => (σ', inl e)
       end.

Definition raise {A} (e : exn) : Py A := λ σ, (σ, inl e).

#[global] Instance Py_ret : MRet Py := @py_ret.
#[global] Instance Py_bind : MBind Py := @py_bind.

(** A call into a collaborator that does not touch the store. *)
Definition lift {A} (r : exn + A) : Py A := λ σ, (σ, r).

Definition alloc (o : object) : Py loc := λ σ, (σ ++ [o], inr (length σ)).

Definition load_tensor (l : loc) : Py Tensor :=
  λ σ, match σ !! l with
       | Some (ObjTensor t) => (σ, inr t)
       | _ => (σ, inl (TypeError "not a tensor"))
       end.

Definition load_list (l : loc) : Py (list string) :=
  λ σ, match σ !! l with
       | Some (ObjList ts) => (σ, inr ts)
       | _ => (σ, inl (TypeError "not a list"))
       end.

Definition store_at (l : loc) (o : object) : Py () := λ σ, (<[l:=o]> σ, inr ()).

(** ** The torch operations the source calls *)

(** Inclusive bounds of an element type. *)
Definition dtype_min (dt : dtype) : Z :=
  match dt with
  | torch_uint8 => 0
  | torch_int8 => - 2 ^ 7
  | torch_int16 => - 2 ^ 15
  | torch_int32 => - 2 ^ 31
  | torch_int64 => - 2 ^ 63
  end.

Definition dtype_max (dt : dtype) : Z :=
  match dt with
  | torch_uint8 => 2 ^ 8 - 1
  | torch_int8 => 2 ^ 7 - 1
  | torch_int16 => 2 ^ 15 - 1
  | torch_int32 => 2 ^ 31 - 1
  | torch_int64 => 2 ^ 63 - 1
  end.

Definition fits (dt : dtype) (z : Z) : bool :=
  (dtype_min dt <=? z) && (z <=? dtype_max dt).

(** Bytes per element. *)
Definition itemsize (dt : dtype) : Z :=
  match dt with
  | torch_uint8 | torch_int8 => 1
  | torch_int16 => 2
  | torch_int32 => 4
  | torch_int64 => 8
  end.

(** torch.arange(start, end): start, start+1, ..., end-1 (empty when
    end <= start). *)
Definition arange (start stop : Z) : list Z :=
  seqZ start (stop - start).

(** The stop index of the Python slice [:stop] on a sequence of length len. *)
Definition slice_stop (len : nat) (stop : Z) : nat :=
  if stop <? 0 then Z.to_nat (Z.of_nat len + stop)
  else Nat.min (Z.to_nat stop) len.

Section Torch.

(** torch.empty does not initialise the storage it hands out: cell i of the
    new tensor holds whatever [uninit i] was left there. *)
Variable uninit : nat → Z.

(** The bytes the allocator of a device can hand out at the time of a
    call. *)
Variable memory : device → N.

(** What this version of torch raises for a list with a Python int that does
    not fit 64 bits. *)
Variable wide_int_error : list Z → exn.

(** torch.empty(size, dtype=dt, device=dev).  The size is unpacked to a
    64-bit int, must not be negative, and the storage of size elements must
    stay below 2^63 bytes and within the memory at hand. *)
Definition torch_empty (size : Z) (dt : dtype) (dev : device) : Py loc :=
  if negb (fits torch_int64 size) then
    raise (TypeError "empty(): argument 'size' must be tuple of ints")
  else if size <? 0 then
    raise (RuntimeError "Trying to create tensor with negative dimension")
  else if (2 ^ 63 <=? size * itemsize dt) || (Z.of_N (memory dev) <? size * itemsize dt) then
    raise (RuntimeError "can't allocate memory")
  else alloc (ObjTensor (mkTensor (uninit <$> seq 0 (Z.to_nat size)) dt dev)).

(** dst[:stop] = src, for two tensors of one element type.  The source is
    broadcast to the shape of the slice: equal lengths, or a single
    element repeated; any other shape raises. *)
Definition setitem_upto (dst : loc) (stop : Z) (src : loc) : Py () :=
  d ← load_tensor dst;
  s ← load_tensor src;
  let k := slice_stop (length (data d)) stop in
  if decide (length (data s) = k) then
    store_at dst (ObjTensor (mkTensor (data s ++ drop k (data d)) (t_dtype d) (t_device d)))
  else
    match data s with
    | [x] => store_at dst (ObjTensor (mkTensor (replicate k x ++ drop k (data d))
                                               (t_dtype d) (t_device d)))
    | _ => raise (RuntimeError "The expanded size of the tensor must match the existing size")
    end.

(** torch.arange(start, end, device=dev), of element type int64. *)
Definition torch_arange (start stop : Z) (dev : device) : Py loc :=
  alloc (ObjTensor (mkTensor (arange start stop) torch_int64 dev)).

(** torch.tensor(values, dtype=dt, device=dev) on a list of Python ints.
    A value that fits 64 bits but not dt raises RuntimeError; with a value
    beyond 64 bits the exception is the one of the torch version. *)
Definition torch_tensor (values : list Z) (dt : dtype) (dev : device) : Py loc :=
  if forallb (fits dt) values then alloc (ObjTensor (mkTensor values dt dev))
  else if forallb (fits torch_int64) values then
    raise (RuntimeError "value cannot be converted to type without overflow")
  else raise (wide_int_error values).

(** tensor.tolist() of a tensor of shape (T): a list of T Python ints. *)
Definition tolist (t : loc) : Py (list Z) :=
  x ← load_tensor t; mret (data x).

(** ** Prefill buffer builder (source lines 27-65) *)

Definition default_block_size : Z := 2048.

Definition setup_cache_padded_seq_input_pos_max_seq_length_for_prefill
    (model : loc) (prompt : loc) (max_new_tokens : Z)
    (max_seq_length : option Z) (block_size : Z) : Py (loc * loc * Z) :=
  p ← load_tensor prompt;
  let T := Z.of_nat (length (data p)) in
  let T_new := T + max_new_tokens in
  let max_seq_length :=
    match max_seq_length with
    | None => Z.min T_new block_size
    | Some m => m
    end in
  let '(device, dtype) := (t_device p, t_dtype p) in
  empty ← torch_empty T_new dtype device;
  _ ← setitem_upto empty T prompt;
  let seq := empty in
  input_pos ← torch_arange 0 T device;
  (* model.setup_caches(...) is commented out in the source *)
  mret (seq, input_pos, max_seq_length).

End Torch.

(** ** Harness adapter (source lines 68-141) *)

(** The tokenizer collaborator, a SentencePieceProcessor: only the four
    methods the adapter calls. *)
Record Tokenizer := mkTokenizer {
  bos_id : Z;
  eos_id : Z;
  encode : string → list Z;
  decode : list Z → string
}.

Record GPTFastEvalWrapper := mkGPTFastEvalWrapper {
  _model : loc;
  _tokenizer : Tokenizer;
  _device : device;
  _max_seq_length : Z
}.

(** __init__; [cuda_is_available] is the answer of torch.cuda.is_available().
    The initialiser of the base class comes first in the source and belongs
    to the harness; the attributes below are assigned after it. *)
Definition GPTFastEvalWrapper__init__ (cuda_is_available : bool)
    (model : loc) (tokenizer : Tokenizer) (max_seq_length : option Z)
    : GPTFastEvalWrapper :=
  {| _model := model;
     _tokenizer := tokenizer;
     _device := if cuda_is_available then cuda else cpu;
     _max_seq_length := match max_seq_length with
                        | None => 2048
                        | Some m => m
                        end |}.

Definition eot_token_id (self : GPTFastEvalWrapper) : Z := eos_id (_tokenizer self).

Definition max_length (self : GPTFastEvalWrapper) : Z := _max_seq_length self.

Definition max_gen_toks (self : GPTFastEvalWrapper) : Z := 50.

Definition batch_size (self : GPTFastEvalWrapper) : Z := 1.

Definition device_of (self : GPTFastEvalWrapper) : device := _device self.

Definition tok_encode (wide_int_error : list Z → exn)
    (self : GPTFastEvalWrapper) (string : string) : Py (list Z) :=
  let tokens := [bos_id (_tokenizer self)] ++ encode (_tokenizer self) string in
  encoded ← torch_tensor wide_int_error tokens torch_int32 (device_of self);
  encoded ← tolist encoded;
  mret encoded.

Definition tok_decode (self : GPTFastEvalWrapper) (tokens : list Z) : string :=
  decode (_tokenizer self) tokens.

Definition _model_generate {Ctx MaxLength EosTokenId Ret : Type}
    (self : GPTFastEvalWrapper) (context : Ctx) (max_length : MaxLength)
    (eos_token_id : EosTokenId) : Py Ret :=
  raise (Exception "unimplemented").

(** ** The evaluation driver (source lines 144-175) *)

(** list.remove(x): drops the first occurrence of x, [None] when there is
    none (Python raises ValueError). *)
Fixpoint list_remove (x : string) (l : list string) : option (list string) :=
  match l with
  | [] => None
  | y :: l' => if decide (x = y) then Some l'
               else cons y <$> list_remove x l'
  end.

(** tasks.remove(x), on the list object itself. *)
Definition py_list_remove (l : loc) (x : string) : Py () :=
  ts ← load_list l;
  match list_remove x ts with
  | Some ts' => store_at l (ObjList ts')
  | None => raise (ValueError "list.remove(x): x not in list")
  end.

(** tasks += more, which extends the list object in place. *)
Definition py_list_iadd (l : loc) (more : list string) : Py () :=
  ts ← load_list l;
  store_at l (ObjList (ts ++ more)).

Section Eval.

(** Collaborators from lm_eval: the adapter type, the task dictionary and
    the results; what lm_eval.tasks.hendrycks_test.create_all_tasks().keys()
    gives when line 167 evaluates it, the names of all hendrycks tasks in
    the order of the dictionary or the exception of the lookup;
    get_task_dict and evaluate. *)
Context {LM TaskDict Results : Type}.
Variable hendrycks_test_all_tasks : exn + list string.
Variable get_task_dict : list string → exn + TaskDict.
Variable evaluate : LM → TaskDict → option Z → exn + Results.

Definition eval (eval_wrapper : LM) (tasks : option loc) (limit : option Z)
    : Py Results :=
  tasks ← match tasks with
          | None => alloc (ObjList ["wikitext"%string])
          | Some l => mret l
          end;
  names ← load_list tasks;
  _ ← (if bool_decide ("hendrycks_test"%string ∈ names) then
         _ ← py_list_remove tasks "hendrycks_test";
         all_tasks ← lift hendrycks_test_all_tasks;
         py_list_iadd tasks all_tasks
       else mret ());
  names ← load_list tasks;
  task_dict ← lift (get_task_dict names);
  eval_results ← lift (evaluate eval_wrapper task_dict limit);
  mret eval_results.

End Eval.

(** ** Vocabulary of the statements *)

(** The effective max length for a prompt of length T and N new tokens. *)
Definition effective_max (T N : Z) (max_seq_length : option Z) (block_size : Z) : Z :=
  match max_seq_length with
  | None => Z.min (T + N) block_size
  | Some m => m
  end.

(** An object that is a tensor. *)
Definition is_tensor (o : object) : Prop := ∃ t, o = ObjTensor t.

(** torch.empty can make a tensor of size elements of type dt on dev. *)
Definition can_allocate (memory : device → N) (size : Z) (dt : dtype) (dev : device)
    : bool :=
  (0 <=? size) && (size * itemsize dt <? 2 ^ 63)
  && (size * itemsize dt <=? Z.of_N (memory dev)).

(** A gigabyte on every device. *)
Definition example_memory : device → N := λ _, (2 ^ 30)%N.

(** A torch that raises ValueError for an int beyond 64 bits. *)
Definition example_wide_int_error : list Z → exn :=
  λ _, ValueError "Overflow when unpacking long long".

(** Token ids of a SentencePieceProcessor are 32-bit ints. *)
Definition int32_ids (tokenizer : Tokenizer) (s : string) : Prop :=
  fits torch_int32 (bos_id tokenizer) = true ∧
  Forall (λ id, fits torch_int32 id = true) (encode tokenizer s).

(** A byte-level tokenizer, to run the adapter on. *)
Definition example_tokenizer : Tokenizer :=
  {| bos_id := 1;
     eos_id := 2;
     encode := λ s, (λ c, Z.of_nat (Ascii.nat_of_ascii c)) <$> String.list_ascii_of_string s;
     decode := λ _, EmptyString |}.

(** All the ids of a string fit 64 bits. *)
Definition int64_ids (tokenizer : Tokenizer) (s : string) : Prop :=
  Forall (λ id, fits torch_int64 id = true) (bos_id tokenizer :: encode tokenizer s).

(** A tokenizer with an id that needs more than 32 bits. *)
Definition wide_tokenizer : Tokenizer :=
  {| bos_id := 1;
     eos_id := 2;
     encode := λ s, [Z.of_nat (String.length s); 2 ^ 31];
     decode := λ _, EmptyString |}.


(** ** Building the adapter and the command-line driver (source lines 178-239) *)

(** The parsed command line: the four attributes this file reads, and the
    rest, which only the export collaborator looks at. *)
Record Namespace (Export : Type) := mkNamespace {
  args_tokenizer_path : string;
  args_max_seq_length : option Z;
  args_tasks : option loc;
  args_limit : option Z;
  args_export : Export
}.

Arguments mkNamespace {Export}.
Arguments args_tokenizer_path {Export}.
Arguments args_max_seq_length {Export}.
Arguments args_tasks {Export}.
Arguments args_limit {Export}.
Arguments args_export {Export}.

(** What evaluate returns: the items of eval_results["results"], in the
    order of the dictionary, and the other entries. *)
Record EvalResults (Metrics Other : Type) := mkEvalResults {
  er_results : list (string * Metrics);
  er_other : Other
}.

Arguments mkEvalResults {Metrics Other}.
Arguments er_results {Metrics Other}.
Arguments er_other {Metrics Other}.

Section Driver.

(** Collaborators: torch.cuda.is_available(), the SentencePieceProcessor
    constructor on a model file, _prepare_for_llama_export followed by the
    read of manager.model, and the module methods eval() and to(device),
    which return the module. *)
Context {Export TaskDict Metrics Other : Type}.
Variable cuda_is_available : bool.
Variable SentencePieceProcessor : string → exn + Tokenizer.
Variable _prepare_for_llama_export : string → Namespace Export → Py loc.
Variable module_eval : loc → Py loc.
Variable module_to : loc → device → Py loc.
Variable hendrycks_test_all_tasks : exn + list string.
Variable get_task_dict : list string → exn + TaskDict.
Variable evaluate :
  GPTFastEvalWrapper → TaskDict → option Z → exn + EvalResults Metrics Other.
Variable py_str : Metrics → string.

Definition gen_eval_wrapper (model_name : string) (args : Namespace Export)
    : Py GPTFastEvalWrapper :=
  tokenizer ← lift (SentencePieceProcessor (args_tokenizer_path args));
  manager_model ← _prepare_for_llama_export model_name args;
  model ← (if cuda_is_available
           then evaluated ← module_eval manager_model; module_to evaluated cuda
           else module_to manager_model cpu);
  mret (GPTFastEvalWrapper__init__ cuda_is_available model tokenizer
          (args_max_seq_length args)).

(** One printed line, f"{task}: {res}". *)
Definition result_line (item : string * Metrics) : string :=
  (item.1 +:+ ": " +:+ py_str item.2)%string.

(** eval_llama; the value is the list of the lines it prints. *)
Definition eval_llama (model_name : string) (args : Namespace Export)
    : Py (list string) :=
  eval_wrapper ← gen_eval_wrapper model_name args;
  eval_results ← eval hendrycks_test_all_tasks get_task_dict evaluate
                   eval_wrapper (args_tasks args) (args_limit args);
  mret (result_line <$> er_results eval_results).

End Driver.

(** The outcome of the harness on a list of task names: the results of
    evaluate on the task dictionary, or the exception of get_task_dict or of
    evaluate. *)
Definition harness_outcome {LM TaskDict Results : Type}
    (get_task_dict : list string → exn + TaskDict)
    (evaluate : LM → TaskDict → option Z → exn + Results)
    (eval_wrapper : LM) (limit : option Z) (names : list string) : exn + Results :=
  match get_task_dict names with
  | inl e => inl e
  | inr task_dict => evaluate eval_wrapper task_dict limit
  end.

(** The lookup of line 167 under the lm_eval layout that lines 14-17
    import, which has no module lm_eval.tasks.hendrycks_test. *)
Definition hendrycks_test_missing : exn + list string :=
  inl (AttributeError "module 'lm_eval.tasks' has no attribute 'hendrycks_test'").

(** Collaborators to run the driver on: an export that makes a module
    without caches, module methods that return the module, and a harness
    that reports the length of the name of each task. *)
Definition example_export : string → Namespace () → Py loc :=
  λ _ _, alloc (ObjModule (mk_nn_Module None)).

Definition example_module_eval : loc → Py loc := λ m, mret m.

Definition example_module_to : loc → device → Py loc := λ m _, mret m.

Definition example_evaluate
    : GPTFastEvalWrapper → list string → option Z → exn + EvalResults nat () :=
  λ _ task_dict _,
    inr (mkEvalResults ((λ task, (task, String.length task)) <$> task_dict) ()).

Definition example_str : nat → string :=
  λ n, if decide (n = 8%nat) then "eight"%string else "other"%string.

(** * Properties *)

(** ** Running the monad *)

Lemma run_bind {A B} (m : Py A) (f : A → Py B) σ σ' a :
  m σ = (σ', inr a) → (m ≫= f) σ = f a σ'.
Proof. intros Hm. unfold mbind, Py_bind, py_bind. by rewrite Hm. Qed.

Lemma run_bind_raise {A B} (m : Py A) (f : A → Py B) σ σ' e :
  m σ = (σ', inl e) → (m ≫= f) σ = (σ', inl e).
Proof. intros Hm. unfold mbind, Py_bind, py_bind. by rewrite Hm. Qed.

Lemma run_load_tensor σ l t :
  σ !! l = Some (ObjTensor t) → load_tensor l σ = (σ, inr t).
Proof. intros Hl. unfold load_tensor. by rewrite Hl. Qed.

Lemma run_load_list σ l ts :
  σ !! l = Some (ObjList ts) → load_list l σ = (σ, inr ts).
Proof. intros Hl. unfold load_list. by rewrite Hl. Qed.

(** ** Lists *)

Lemma drop_fmap_seq {A} (f : nat → A) (k n : nat) :
  drop k (f <$> seq 0 (k + n)) = f <$> seq k n.
Proof. rewrite <- fmap_drop, drop_seq. do 2 f_equal; lia. Qed.

Lemma lookup_after_fresh {A} (l : list A) (a b : A) :
  (l ++ [a; b]) !! S (length l) = Some b.
Proof.
  rewrite lookup_app_r by lia.
  by replace (S (length l) - length l)%nat with 1%nat by lia.
Qed.

Lemma slice_stop_within (len : nat) (k : nat) :
  (k ≤ len)%nat → slice_stop len (Z.of_nat k) = k.
Proof.
  intros Hk. unfold slice_stop.
  destruct (Z.ltb_spec (Z.of_nat k) 0) as [Hneg | _]; [lia |].
  rewrite Nat2Z.id. lia.
Qed.



(** ** torch.empty *)

Lemma torch_empty_run uninit memory size dt dev σ :
  can_allocate memory size dt dev = true →
  torch_empty uninit memory size dt dev σ
  = (σ ++ [ObjTensor (mkTensor (uninit <$> seq 0 (Z.to_nat size)) dt dev)],
     inr (length σ)).
Proof.
  unfold can_allocate, torch_empty, fits.
  intros [[Hsize Hbytes]%andb_true_iff Hmem]%andb_true_iff.
  apply Z.leb_le in Hsize. apply Z.ltb_lt in Hbytes. apply Z.leb_le in Hmem.
  assert (1 ≤ itemsize dt) by by destruct dt.
  assert (size ≤ size * itemsize dt) by nia.
  cbn [dtype_min dtype_max].
  rewrite (proj2 (Z.leb_le _ _)), (proj2 (Z.leb_le _ _)) by lia. cbn [andb negb].
  rewrite (proj2 (Z.ltb_ge _ _)) by lia.
  rewrite (proj2 (Z.leb_gt _ _)), (proj2 (Z.ltb_ge _ _)) by lia.
  reflexivity.
Qed.

(** torch.empty either raises and leaves the store alone, or succeeds, and
    it succeeds exactly when [can_allocate] says so. *)
Lemma torch_empty_raises uninit memory size dt dev σ :
  can_allocate memory size dt dev = false →
  ∃ e, torch_empty uninit memory size dt dev σ = (σ, inl e).
Proof.
  unfold can_allocate, torch_empty. intros Hno.
  destruct (negb (fits torch_int64 size)); [by eexists |].
  destruct (Z.ltb_spec size 0) as [Hneg | Hpos]; [by eexists |].
  destruct ((2 ^ 63 <=? size * itemsize dt)
            || (Z.of_N (memory dev) <? size * itemsize dt)) eqn:Hbig; [by eexists |].
  apply orb_false_iff in Hbig as [Hbytes%Z.leb_gt Hmem%Z.ltb_ge].
  rewrite (proj2 (Z.leb_le _ _)), (proj2 (Z.ltb_lt _ _)), (proj2 (Z.leb_le _ _)) in Hno
    by lia.
  discriminate.
Qed.

Lemma torch_empty_cases uninit memory size dt dev σ :
  (∃ e, torch_empty uninit memory size dt dev σ = (σ, inl e)) ∨
  torch_empty uninit memory size dt dev σ
  = (σ ++ [ObjTensor (mkTensor (uninit <$> seq 0 (Z.to_nat size)) dt dev)],
     inr (length σ)).
Proof.
  destruct (can_allocate memory size dt dev) eqn:Halloc.
  - right. by apply torch_empty_run.
  - left. by apply torch_empty_raises.
Qed.

(** ** The prefill buffer builder, run to its end *)

Lemma prefill_run uninit memory σ model prompt p N msl bs :
  σ !! prompt = Some (ObjTensor p) →
  0 ≤ N →
  can_allocate memory (Z.of_nat (length (data p)) + N) (t_dtype p) (t_device p) = true →
  setup_cache_padded_seq_input_pos_max_seq_length_for_prefill
    uninit memory model prompt N msl bs σ
  = (σ ++ [ObjTensor (mkTensor (data p ++ (uninit <$> seq (length (data p)) (Z.to_nat N)))
                               (t_dtype p) (t_device p));
           ObjTensor (mkTensor (arange 0 (Z.of_nat (length (data p))))
                               torch_int64 (t_device p))],
     inr (length σ, S (length σ),
          effective_max (Z.of_nat (length (data p))) N msl bs)).
Proof.
  intros Hp HN Halloc.
  unfold setup_cache_padded_seq_input_pos_max_seq_length_for_prefill.
  rewrite (run_bind _ _ _ _ _ (run_load_tensor _ _ _ Hp)). cbn zeta.
  set (T := length (data p)) in *.
  set (E := mkTensor (uninit <$> seq 0 (Z.to_nat (Z.of_nat T + N))) (t_dtype p) (t_device p)).
  rewrite (run_bind _ _ _ _ _ (torch_empty_run uninit _ _ _ _ σ Halloc)). fold E.
  assert (Hset : setitem_upto (length σ) (Z.of_nat T) prompt (σ ++ [ObjTensor E])
                 = (σ ++ [ObjTensor (mkTensor (data p ++ (uninit <$> seq T (Z.to_nat N)))
                                              (t_dtype p) (t_device p))], inr ())).
  { unfold setitem_upto.
    rewrite (run_bind _ _ (σ ++ [ObjTensor E]) (σ ++ [ObjTensor E]) E).
    2:{ apply run_load_tensor. by apply list_lookup_middle. }
    rewrite (run_bind _ _ (σ ++ [ObjTensor E]) (σ ++ [ObjTensor E]) p).
    2:{ apply run_load_tensor. by apply lookup_app_l_Some. }
    cbn zeta.
    assert (Hlen : length (data E) = (T + Z.to_nat N)%nat).
    { subst E. cbn. rewrite length_fmap, length_seq. lia. }
    rewrite Hlen, slice_stop_within by lia.
    rewrite decide_True by done.
    unfold store_at. f_equal.
    rewrite insert_app_r_alt by lia.
    rewrite Nat.sub_diag. cbn. do 3 f_equal.
    subst E. cbn.
    replace (Z.to_nat (Z.of_nat T + N)) with (T + Z.to_nat N)%nat by lia.
    by rewrite drop_fmap_seq. }
  rewrite (run_bind _ _ _ _ _ Hset).
  unfold torch_arange, alloc, mbind, Py_bind, py_bind, mret, Py_ret, py_ret.
  rewrite <- app_assoc. cbn. rewrite length_app. cbn.
  do 4 f_equal. lia.
Qed.


Example prefill_example :
  setup_cache_padded_seq_input_pos_max_seq_length_for_prefill (λ _, 0) example_memory
    0%nat 1%nat 2 None default_block_size
    [ObjModule (mk_nn_Module None); ObjTensor (mkTensor [5; 6; 7] torch_int64 cpu)]
  = ([ObjModule (mk_nn_Module None); ObjTensor (mkTensor [5; 6; 7] torch_int64 cpu);
      ObjTensor (mkTensor [5; 6; 7; 0; 0] torch_int64 cpu);
      ObjTensor (mkTensor [0; 1; 2] torch_int64 cpu)],
     inr (2%nat, 3%nat, 5)).
Proof. vm_compute. reflexivity. Qed.

Example prefill_example_single :
  setup_cache_padded_seq_input_pos_max_seq_length_for_prefill (λ _, 0) example_memory
    0%nat 1%nat 0 None default_block_size
    [ObjModule (mk_nn_Module None); ObjTensor (mkTensor [1] torch_int64 cpu)]
  = ([ObjModule (mk_nn_Module None); ObjTensor (mkTensor [1] torch_int64 cpu);
      ObjTensor (mkTensor [1] torch_int64 cpu);
      ObjTensor (mkTensor [0] torch_int64 cpu)],
     inr (2%nat, 3%nat, 1)).
Proof. vm_compute. reflexivity. Qed.

(** A size of 2^62 int64 elements is unpacked but not allocated, and a size
    of 2^63 is not even unpacked. *)
Example torch_empty_sizes :
  torch_empty (λ _, 0) example_memory (2 ^ 62) torch_int64 cpu []
    = ([], inl (RuntimeError "can't allocate memory")) ∧
  torch_empty (λ _, 0) example_memory (2 ^ 63) torch_int64 cpu []
    = ([], inl (TypeError "empty(): argument 'size' must be tuple of ints")).
Proof. split; vm_compute; reflexivity. Qed.

(** C1. The docstring promises a prompt "padded with zeros", but the buffer
    comes from torch.empty: on the prompt [5, 6, 7] with two new tokens and
    storage that held sevens, the returned buffer is [5, 6, 7, 7, 7], so
    its last two entries (indices 3 and 4) are not zero. *)
Theorem prefill_padding_not_zeroed :
  ∃ σ' sq input_pos m buf,
    setup_cache_padded_seq_input_pos_max_seq_length_for_prefill (λ _, 7) example_memory
      0%nat 1%nat 2 None default_block_size
      [ObjModule (mk_nn_Module None); ObjTensor (mkTensor [5; 6; 7] torch_int64 cpu)]
    = (σ', inr (sq, input_pos, m)) ∧
    σ' !! sq = Some (ObjTensor buf) ∧
    data buf = [5; 6; 7; 7; 7] ∧
    data buf !! 3%nat ≠ Some 0 ∧
    data buf !! 4%nat ≠ Some 0.
Proof.
  exists [ObjModule (mk_nn_Module None); ObjTensor (mkTensor [5; 6; 7] torch_int64 cpu);
          ObjTensor (mkTensor [5; 6; 7; 7; 7] torch_int64 cpu);
          ObjTensor (mkTensor [0; 1; 2] torch_int64 cpu)],
         2%nat, 3%nat, 5, (mkTensor [5; 6; 7; 7; 7] torch_int64 cpu).
  split; [vm_compute; reflexivity |].
  split; [reflexivity |].
  split; [reflexivity |].
  split; discriminate.
Qed.



(** Assigning into a tensor that was just allocated touches that tensor
    only, whatever the source and whether or not the shapes agree. *)
Lemma setitem_upto_fresh σ E stop src :
  ∃ X r, setitem_upto (length σ) stop src (σ ++ [ObjTensor E])
         = (σ ++ [ObjTensor X], r).
Proof.
  unfold setitem_upto.
  rewrite (run_bind _ _ (σ ++ [ObjTensor E]) (σ ++ [ObjTensor E]) E)
    by (apply run_load_tensor; by apply list_lookup_middle).
  assert (Hins : ∀ X, store_at (length σ) (ObjTensor X) (σ ++ [ObjTensor E])
                      = (σ ++ [ObjTensor X], inr ())).
  { intros X. unfold store_at. f_equal.
    rewrite insert_app_r_alt by lia. by rewrite Nat.sub_diag. }
  destruct ((σ ++ [ObjTensor E]) !! src) as [[s | m | ts] |] eqn:Hsrc.
  - rewrite (run_bind _ _ _ _ _ (run_load_tensor _ _ _ Hsrc)). cbn zeta.
    case_decide; [eauto |].
    destruct (data s) as [| x [| y tl]]; unfold raise; eauto.
  - eexists E, _. apply run_bind_raise. unfold load_tensor. by rewrite Hsrc.
  - eexists E, _. apply run_bind_raise. unfold load_tensor. by rewrite Hsrc.
  - eexists E, _. apply run_bind_raise. unfold load_tensor. by rewrite Hsrc.
Qed.






(** With an empty prompt and N = 2^63 the call does raise: the size of the
    buffer is not a 64-bit int, torch.empty raises TypeError and nothing is
    returned. *)
Lemma prefill_empty_prompt_huge_budget_raises :
  setup_cache_padded_seq_input_pos_max_seq_length_for_prefill (λ _, 0) example_memory
    0%nat 1%nat (2 ^ 63) None default_block_size
    [ObjModule (mk_nn_Module None); ObjTensor (mkTensor [] torch_int64 cpu)]
  = ([ObjModule (mk_nn_Module None); ObjTensor (mkTensor [] torch_int64 cpu)],
     inl (TypeError "empty(): argument 'size' must be tuple of ints")).
Proof. vm_compute. reflexivity. Qed.

(** C9, amended. For an empty prompt (T = 0) and an N >= 0 of which
    torch.empty can allocate N elements, the call raises nothing: it returns
    a buffer of length N, an empty position index sequence and, when
    max_seq_length is None, the effective max length min(N, block_size). *)
Theorem prefill_empty_prompt uninit memory σ model prompt p N msl bs :
  σ !! prompt = Some (ObjTensor p) →
  data p = [] →
  0 ≤ N →
  can_allocate memory N (t_dtype p) (t_device p) = true →
  ∃ σ' sq input_pos m buf pos,
    setup_cache_padded_seq_input_pos_max_seq_length_for_prefill
      uninit memory model prompt N msl bs σ = (σ', inr (sq, input_pos, m)) ∧
    σ' !! sq = Some (ObjTensor buf) ∧
    Z.of_nat (length (data buf)) = N ∧
    σ' !! input_pos = Some (ObjTensor pos) ∧
    data pos = [] ∧
    (msl = None → m = Z.min N bs).
Proof.
  intros Hp Hnil HN Halloc. eexists _, _, _, _, _, _.
  split.
  { apply prefill_run; [done.. |]. by rewrite Hnil. }
  split; [by apply list_lookup_middle |].
  rewrite Hnil. cbn [data length app].
  split; [rewrite length_fmap, length_seq; lia |].
  split; [apply lookup_after_fresh |].
  split; [done |].
  by intros ->.
Qed.

Lemma prefill_empty_prompt_witness :
  0 ≤ 2 ∧
  can_allocate example_memory 2 torch_int64 cpu = true ∧
  ∃ σ' sq input_pos m buf pos,
    setup_cache_padded_seq_input_pos_max_seq_length_for_prefill (λ _, 0) example_memory
      0%nat 1%nat 2 None default_block_size
      [ObjModule (mk_nn_Module None); ObjTensor (mkTensor [] torch_int64 cpu)]
    = (σ', inr (sq, input_pos, m)) ∧
    σ' !! sq = Some (ObjTensor buf) ∧
    Z.of_nat (length (data buf)) = 2 ∧
    σ' !! input_pos = Some (ObjTensor pos) ∧
    data pos = [] ∧
    (@None Z = None → m = Z.min 2 default_block_size).
Proof.
  split; [lia |]. split; [reflexivity |].
  apply (prefill_empty_prompt (λ _, 0) example_memory
           [ObjModule (mk_nn_Module None); ObjTensor (mkTensor [] torch_int64 cpu)]
           0%nat 1%nat (mkTensor [] torch_int64 cpu) 2 None default_block_size);
    [reflexivity | reflexivity | lia | reflexivity].
Defined.

(** ** Frame of the prefill buffer builder *)

(** Whatever the arguments and the outcome, the call only appends fresh
    tensors to the store. *)
Lemma prefill_store_extends uninit memory σ model prompt N msl bs :
  ∃ fresh,
    (setup_cache_padded_seq_input_pos_max_seq_length_for_prefill
       uninit memory model prompt N msl bs σ).1 = σ ++ fresh ∧
    Forall is_tensor fresh.
Proof.
  unfold setup_cache_padded_seq_input_pos_max_seq_length_for_prefill.
  destruct (σ !! prompt) as [[p | m | ts] |] eqn:Hp.
  2-4: exists []; split; [| constructor];
       erewrite run_bind_raise by (unfold load_tensor; by rewrite Hp);
       cbn; by rewrite app_nil_r.
  rewrite (run_bind _ _ _ _ _ (run_load_tensor _ _ _ Hp)). cbn zeta.
  destruct (torch_empty_cases uninit memory (Z.of_nat (length (data p)) + N)
              (t_dtype p) (t_device p) σ) as [[e He] | Hempty].
  { exists []. split; [| constructor].
    rewrite (run_bind_raise _ _ _ _ _ He). cbn. by rewrite app_nil_r. }
  rewrite (run_bind _ _ _ _ _ Hempty).
  destruct (setitem_upto_fresh σ
              (mkTensor (uninit <$> seq 0 (Z.to_nat (Z.of_nat (length (data p)) + N)))
                        (t_dtype p) (t_device p))
              (Z.of_nat (length (data p))) prompt) as (X & [e | []] & Hset).
  - exists [ObjTensor X]. split.
    + by erewrite run_bind_raise by exact Hset.
    + repeat constructor. by exists X.
  - eexists [ObjTensor X; ObjTensor _]. split.
    + erewrite run_bind by exact Hset.
      unfold torch_arange, alloc, mbind, Py_bind, py_bind. cbn.
      by rewrite <- app_assoc.
    + repeat constructor; by eexists.
Qed.

(** C7. A call has no effect beyond the values it returns: whatever the
    arguments and whether it returns or raises, the store afterwards is the
    store before followed by fresh objects, the model and the prompt are the
    objects they were, and every module of the final store is a module of
    the initial one in the same state, so no cache was set up. *)
Theorem prefill_no_side_effects uninit memory σ model prompt N msl bs m p :
  σ !! model = Some (ObjModule m) →
  σ !! prompt = Some (ObjTensor p) →
  ∀ σ' r,
    setup_cache_padded_seq_input_pos_max_seq_length_for_prefill
      uninit memory model prompt N msl bs σ = (σ', r) →
    σ `prefix_of` σ' ∧
    σ' !! model = Some (ObjModule m) ∧
    σ' !! prompt = Some (ObjTensor p) ∧
    (∀ l m', σ' !! l = Some (ObjModule m') → σ !! l = Some (ObjModule m')).
Proof.
  intros Hm Hp σ' r Hrun.
  destruct (prefill_store_extends uninit memory σ model prompt N msl bs)
    as (fresh & Hext & Hfresh).
  rewrite Hrun in Hext. cbn in Hext. subst σ'.
  split; [by exists fresh |].
  split; [by apply lookup_app_l_Some |].
  split; [by apply lookup_app_l_Some |].
  intros l m' Hl.
  apply lookup_app_Some in Hl as [Hl | [_ Hl]]; [done |].
  apply list_elem_of_lookup_2 in Hl.
  rewrite Forall_forall in Hfresh.
  destruct (Hfresh _ Hl) as [t Ht]. discriminate.
Qed.

Lemma prefill_no_side_effects_witness :
  let σ := [ObjModule (mk_nn_Module None);
            ObjTensor (mkTensor [5; 6; 7] torch_int64 cpu)] in
  let σ' := σ ++ [ObjTensor (mkTensor [5; 6; 7; 9; 9] torch_int64 cpu);
                  ObjTensor (mkTensor [0; 1; 2] torch_int64 cpu)] in
  σ `prefix_of` σ' ∧
  σ' !! 0%nat = Some (ObjModule (mk_nn_Module None)) ∧
  σ' !! 1%nat = Some (ObjTensor (mkTensor [5; 6; 7] torch_int64 cpu)) ∧
  (∀ l m', σ' !! l = Some (ObjModule m') → σ !! l = Some (ObjModule m')).
Proof.
  exact (prefill_no_side_effects (λ _, 9) example_memory
           [ObjModule (mk_nn_Module None); ObjTensor (mkTensor [5; 6; 7] torch_int64 cpu)]
           0%nat 1%nat 2 None default_block_size
           (mk_nn_Module None) (mkTensor [5; 6; 7] torch_int64 cpu)
           eq_refl eq_refl _ (inr (2%nat, 3%nat, 5)) eq_refl).
Defined.

(** ** The harness adapter *)

(** C5. Whatever the adapter, the context, the max_length and the
    eos_token_id, and whatever result is expected, _model_generate raises
    Exception("unimplemented") and leaves the store as it was; it never
    returns a value. *)
Theorem model_generate_always_raises
    {Ctx MaxLength EosTokenId Ret : Type}
    (self : GPTFastEvalWrapper) (context : Ctx)
    (max_length : MaxLength) (eos_token_id : EosTokenId) (σ : store) :
  _model_generate (Ret := Ret) self context max_length eos_token_id σ
    = (σ, inl (Exception "unimplemented")) ∧
  ∀ σ' (v : Ret),
    _model_generate (Ret := Ret) self context max_length eos_token_id σ
      ≠ (σ', inr v).
Proof. split; [reflexivity |]. intros σ' v. discriminate. Qed.

Lemma forallb_Forall {A} (f : A → bool) (l : list A) :
  Forall (λ x, f x = true) l → forallb f l = true.
Proof. induction 1 as [| x l Hx _ IH]; [done |]. cbn. by rewrite Hx, IH. Qed.

Lemma forallb_fits_int32_ids (tokenizer : Tokenizer) (s : string) :
  forallb (fits torch_int32) (bos_id tokenizer :: encode tokenizer s) = true
  ↔ int32_ids tokenizer s.
Proof.
  unfold int32_ids. cbn [forallb]. rewrite andb_true_iff.
  apply and_iff_compat_l.
  rewrite forallb_forall, Forall_forall.
  by setoid_rewrite list_elem_of_In.
Qed.

(** tok_encode, run to its end on ids of 32 bits. *)
Lemma tok_encode_run wide_int_error (self : GPTFastEvalWrapper) (s : string) (σ : store) :
  int32_ids (_tokenizer self) s →
  tok_encode wide_int_error self s σ
  = (σ ++ [ObjTensor (mkTensor (bos_id (_tokenizer self) :: encode (_tokenizer self) s)
                               torch_int32 (_device self))],
     inr (bos_id (_tokenizer self) :: encode (_tokenizer self) s)).
Proof.
  intros Hids%forallb_fits_int32_ids.
  unfold tok_encode, torch_tensor. cbn [app]. rewrite Hids.
  erewrite run_bind by reflexivity.
  unfold tolist.
  erewrite run_bind.
  2:{ erewrite run_bind; [reflexivity |].
      apply run_load_tensor. by apply list_lookup_middle. }
  reflexivity.
Qed.

(** C6. For every string s, with the 32-bit token ids a tokenizer hands
    out, tok_encode returns a plain list of integers: the tokenizer's
    beginning-of-sequence id first, then the tokenizer's encoding of s. *)
Theorem tok_encode_prepends_bos wide_int_error
    (self : GPTFastEvalWrapper) (s : string) (σ : store) :
  int32_ids (_tokenizer self) s →
  ∃ σ', tok_encode wide_int_error self s σ
        = (σ', inr (bos_id (_tokenizer self) :: encode (_tokenizer self) s)).
Proof. intros Hids. eexists. by apply tok_encode_run. Qed.

Lemma tok_encode_prepends_bos_witness :
  int32_ids example_tokenizer "hi" ∧
  ∃ σ', tok_encode example_wide_int_error
          (GPTFastEvalWrapper__init__ false 0%nat example_tokenizer None) "hi" []
        = (σ', inr [1; 104; 105]).
Proof.
  split; [split; [reflexivity | repeat constructor] |].
  apply (tok_encode_prepends_bos example_wide_int_error
           (GPTFastEvalWrapper__init__ false 0%nat example_tokenizer None)
           "hi" []).
  split; [reflexivity | repeat constructor].
Defined.

(** An id outside 32 bits makes torch.tensor, and with it tok_encode, raise. *)
Example tok_encode_wide_id_raises :
  tok_encode example_wide_int_error
    (GPTFastEvalWrapper__init__ false 0%nat
       (mkTokenizer (2 ^ 31) 2 (λ _, []) (λ _, EmptyString)) None)
    "hi" []
  = ([], inl (RuntimeError "value cannot be converted to type without overflow")).
Proof. reflexivity. Qed.

(** C8. max_gen_toks is 50 and batch_size is 1 on every adapter, and
    max_length of a constructed adapter is 2048 when the constructor got no
    max_seq_length and the max_seq_length it got otherwise. *)
Theorem adapter_constants :
  (∀ self, max_gen_toks self = 50 ∧ batch_size self = 1) ∧
  (∀ cuda_is_available model tokenizer,
     max_length (GPTFastEvalWrapper__init__ cuda_is_available model tokenizer None)
       = 2048) ∧
  (∀ cuda_is_available model tokenizer (supplied : Z),
     max_length (GPTFastEvalWrapper__init__ cuda_is_available model tokenizer
                   (Some supplied))
       = supplied).
Proof. by repeat split. Qed.

(** tok_encode leaves exactly one new object behind, the int32 tensor it
    built on the device of the adapter; every object that was in the store
    is untouched and the list that is returned holds the ids of that
    tensor. *)
Theorem tok_encode_store_effect wide_int_error
    (self : GPTFastEvalWrapper) (s : string) (σ : store) :
  int32_ids (_tokenizer self) s →
  tok_encode wide_int_error self s σ
  = (σ ++ [ObjTensor (mkTensor (bos_id (_tokenizer self) :: encode (_tokenizer self) s)
                               torch_int32 (_device self))],
     inr (bos_id (_tokenizer self) :: encode (_tokenizer self) s)).
Proof. apply tok_encode_run. Qed.

Lemma tok_encode_store_effect_witness :
  int32_ids example_tokenizer "hi" ∧
  tok_encode example_wide_int_error
    (GPTFastEvalWrapper__init__ true 0%nat example_tokenizer None) "hi"
    [ObjModule (mk_nn_Module None)]
  = ([ObjModule (mk_nn_Module None);
      ObjTensor (mkTensor [1; 104; 105] torch_int32 cuda)],
     inr [1; 104; 105]).
Proof.
  split; [split; [reflexivity | repeat constructor] |].
  apply (tok_encode_store_effect example_wide_int_error
           (GPTFastEvalWrapper__init__ true 0%nat example_tokenizer None)
           "hi" [ObjModule (mk_nn_Module None)]).
  split; [reflexivity | repeat constructor].
Defined.

(** When the beginning-of-sequence id or an id of the encoding does not fit
    32 bits, tok_encode raises from torch.tensor(..., dtype=torch.int),
    returns no list and leaves the store as it was; the exception is a
    RuntimeError when all the ids fit 64 bits. *)
Theorem tok_encode_wide_ids_raise wide_int_error
    (self : GPTFastEvalWrapper) (s : string) (σ : store) :
  ¬ int32_ids (_tokenizer self) s →
  ∃ e,
    tok_encode wide_int_error self s σ = (σ, inl e) ∧
    (int64_ids (_tokenizer self) s → ∃ msg, e = RuntimeError msg).
Proof.
  intros Hwide.
  unfold tok_encode, torch_tensor. cbn [app].
  destruct (forallb (fits torch_int32)
              (bos_id (_tokenizer self) :: encode (_tokenizer self) s)) eqn:Hfits.
  { by apply forallb_fits_int32_ids in Hfits. }
  destruct (forallb (fits torch_int64)
              (bos_id (_tokenizer self) :: encode (_tokenizer self) s)) eqn:Hfits64.
  - eexists. split; [by apply run_bind_raise | eauto].
  - eexists. split; [by apply run_bind_raise |].
    intros Hids%forallb_Forall. unfold int64_ids in *. congruence.
Qed.

Lemma tok_encode_wide_ids_raise_witness :
  ¬ int32_ids wide_tokenizer "hi" ∧
  ∃ e,
    tok_encode example_wide_int_error
      (GPTFastEvalWrapper__init__ false 0%nat wide_tokenizer None) "hi"
      [ObjModule (mk_nn_Module None)]
    = ([ObjModule (mk_nn_Module None)], inl e) ∧
    (int64_ids wide_tokenizer "hi" → ∃ msg, e = RuntimeError msg).
Proof.
  assert (Hwide : ¬ int32_ids wide_tokenizer "hi").
  { intros [_ Hids]. cbn in Hids.
    apply Forall_cons_1 in Hids as [_ Hids].
    apply Forall_cons_1 in Hids as [Hbig _].
    discriminate Hbig. }
  split; [exact Hwide |].
  exact (tok_encode_wide_ids_raise example_wide_int_error
           (GPTFastEvalWrapper__init__ false 0%nat wide_tokenizer None)
           "hi" [ObjModule (mk_nn_Module None)] Hwide).
Defined.

(** ** The evaluation driver *)

Lemma list_remove_first x (l : list string) :
  x ∈ l →
  ∃ pre post,
    l = pre ++ (x :: post) ∧ (x ∉ pre) ∧ list_remove x l = Some (pre ++ post).
Proof.
  induction l as [| y l IH]; intros Hin.
  - by apply elem_of_nil in Hin.
  - cbn. destruct (decide (x = y)) as [-> | Hne].
    + exists [], l. split; [done |]. split; [apply not_elem_of_nil | done].
    + apply elem_of_cons in Hin as [? | Hin]; [done |].
      destruct (IH Hin) as (pre & post & -> & Hpre & Hrm).
      exists (y :: pre), post. split; [done |].
      split; [by apply not_elem_of_cons | by rewrite Hrm].
Qed.

Lemma list_remove_absent x (l : list string) :
  x ∉ l → list_remove x l = None.
Proof.
  induction l as [| y l IH]; intros Hin; [done |].
  apply not_elem_of_cons in Hin as [Hne Hin].
  cbn. rewrite decide_False by done. by rewrite IH.
Qed.

Lemma harness_calls_run {LM TaskDict Results : Type}
    (get_task_dict : list string → exn + TaskDict)
    (evaluate : LM → TaskDict → option Z → exn + Results)
    (eval_wrapper : LM) (limit : option Z) (tasks : loc) (names : list string)
    (σ : store) :
  σ !! tasks = Some (ObjList names) →
  (names ← load_list tasks;
   task_dict ← lift (get_task_dict names);
   eval_results ← lift (evaluate eval_wrapper task_dict limit);
   mret eval_results) σ
  = (σ, harness_outcome get_task_dict evaluate eval_wrapper limit names).
Proof.
  intros Hnames.
  rewrite (run_bind _ _ _ _ _ (run_load_list _ _ _ Hnames)).
  unfold harness_outcome, mbind, Py_bind, py_bind, lift, mret, Py_ret, py_ret.
  destruct (get_task_dict names) as [e | task_dict]; [done |].
  by destruct (evaluate eval_wrapper task_dict limit).
Qed.

(** What eval does to a list it was given, and how it ends: without
    "hendrycks_test" the list stays and the harness runs; with it the first
    occurrence goes, and then either the names of the hendrycks tasks are
    appended and the harness runs, or their lookup raises and eval ends
    there. *)
Lemma eval_run {LM TaskDict Results : Type}
    (hendrycks_test_all_tasks : exn + list string)
    (get_task_dict : list string → exn + TaskDict)
    (evaluate : LM → TaskDict → option Z → exn + Results)
    (eval_wrapper : LM) (limit : option Z)
    (tasks : loc) (ts : list string) (σ : store) :
  σ !! tasks = Some (ObjList ts) →
  eval hendrycks_test_all_tasks get_task_dict evaluate
    eval_wrapper (Some tasks) limit σ
  = match list_remove "hendrycks_test" ts with
    | None => (σ, harness_outcome get_task_dict evaluate eval_wrapper limit ts)
    | Some ts' =>
        match hendrycks_test_all_tasks with
        | inl e => (<[tasks := ObjList ts']> σ, inl e)
        | inr all_tasks =>
            (<[tasks := ObjList (ts' ++ all_tasks)]> σ,
             harness_outcome get_task_dict evaluate eval_wrapper limit (ts' ++ all_tasks))
        end
    end.
Proof.
  intros Hts.
  assert (Hlt : (tasks < length σ)%nat) by by eapply lookup_lt_Some.
  unfold eval.
  erewrite run_bind by reflexivity.
  rewrite (run_bind _ _ _ _ _ (run_load_list _ _ _ Hts)).
  destruct (decide ("hendrycks_test"%string ∈ ts)) as [Hin | Hnotin].
  - destruct (list_remove_first _ _ Hin) as (pre & post & Hsplit & Hpre & Hrm).
    rewrite Hrm, bool_decide_eq_true_2 by done.
    assert (Hremove : py_list_remove tasks "hendrycks_test" σ
                      = (<[tasks := ObjList (pre ++ post)]> σ, inr ())).
    { unfold py_list_remove.
      rewrite (run_bind _ _ _ _ _ (run_load_list _ _ _ Hts)).
      by rewrite Hrm. }
    destruct hendrycks_test_all_tasks as [e | all_tasks].
    + apply run_bind_raise.
      rewrite (run_bind _ _ _ _ _ Hremove).
      by apply run_bind_raise.
    + erewrite run_bind; [apply harness_calls_run; by apply list_lookup_insert_eq |].
      rewrite (run_bind _ _ _ _ _ Hremove).
      erewrite run_bind by reflexivity.
      unfold py_list_iadd.
      erewrite run_bind.
      2:{ apply run_load_list. by apply list_lookup_insert_eq. }
      unfold store_at. by rewrite list_insert_insert_eq.
  - rewrite (list_remove_absent _ _ Hnotin).
    rewrite bool_decide_eq_false_2 by done.
    erewrite run_bind by reflexivity.
    by apply harness_calls_run.
Qed.

Example eval_example :
  eval (LM := ()) (inr ["hendrycksTest-anatomy"; "hendrycksTest-virology"]%string)
    (λ names, inr names) (λ _ task_dict _, inr (length task_dict))
    () (Some 0%nat) (Some 5)
    [ObjList ["wikitext"; "hendrycks_test"; "arc_easy"]%string]
  = ([ObjList ["wikitext"; "arc_easy"; "hendrycksTest-anatomy";
               "hendrycksTest-virology"]%string],
     inr 4%nat).
Proof. vm_compute. reflexivity. Qed.

(** list.remove takes out one occurrence: a name listed twice stays once. *)
Example eval_example_listed_twice :
  eval (LM := ()) (inr ["hendrycksTest-anatomy"]%string)
    (λ names, inr names) (λ _ task_dict _, inr (length task_dict))
    () (Some 0%nat) None
    [ObjList ["hendrycks_test"; "hendrycks_test"]%string]
  = ([ObjList ["hendrycks_test"; "hendrycksTest-anatomy"]%string], inr 2%nat).
Proof. vm_compute. reflexivity. Qed.

(** C10. With the lm_eval that this file imports, the lookup of the
    hendrycks tasks on line 167 raises AttributeError.  On the caller's
    list ["wikitext", "hendrycks_test", "arc_easy"] eval has then already
    removed "hendrycks_test" from the list object, appends nothing and
    raises: the list is left as ["wikitext", "arc_easy"] and the harness is
    never run. *)
Theorem eval_hendrycks_expansion_fails :
  eval (LM := ()) hendrycks_test_missing
    (λ names, inr names) (λ _ task_dict _, inr (length task_dict))
    () (Some 0%nat) (Some 5)
    [ObjList ["wikitext"; "hendrycks_test"; "arc_easy"]%string]
  = ([ObjList ["wikitext"; "arc_easy"]%string],
     inl (AttributeError "module 'lm_eval.tasks' has no attribute 'hendrycks_test'")).
Proof. vm_compute. reflexivity. Qed.

(** Given a list, eval ends with the outcome of the harness on exactly the
    names the list holds afterwards, with the wrapper and the limit it was
    given: the results of evaluate, or the exception of get_task_dict or of
    evaluate, unchanged.  The one other ending: the list holds
    "hendrycks_test" and the lookup of the hendrycks tasks raises; eval then
    raises that exception and the harness is not run. *)
Theorem eval_outcome_is_harness_outcome {LM TaskDict Results : Type}
    (hendrycks_test_all_tasks : exn + list string)
    (get_task_dict : list string → exn + TaskDict)
    (evaluate : LM → TaskDict → option Z → exn + Results)
    (eval_wrapper : LM) (limit : option Z)
    (tasks : loc) (ts : list string) (σ : store) :
  σ !! tasks = Some (ObjList ts) →
  ∃ σ' names,
    σ' !! tasks = Some (ObjList names) ∧
    eval hendrycks_test_all_tasks get_task_dict evaluate
      eval_wrapper (Some tasks) limit σ
    = (σ', match (if bool_decide ("hendrycks_test"%string ∈ ts)
                  then hendrycks_test_all_tasks else inr []) with
           | inl e => inl e
           | inr _ => match get_task_dict names with
                      | inl e => inl e
                      | inr task_dict => evaluate eval_wrapper task_dict limit
                      end
           end).
Proof.
  intros Hts.
  assert (Hlt : (tasks < length σ)%nat) by by eapply lookup_lt_Some.
  rewrite (eval_run _ _ _ _ _ _ _ _ Hts).
  destruct (decide ("hendrycks_test"%string ∈ ts)) as [Hin | Hnotin].
  - destruct (list_remove_first _ _ Hin) as (pre & post & _ & _ & ->).
    rewrite bool_decide_eq_true_2 by done.
    destruct hendrycks_test_all_tasks as [e | all_tasks]; eexists _, _;
      (split; [by apply list_lookup_insert_eq | reflexivity]).
  - rewrite (list_remove_absent _ _ Hnotin), bool_decide_eq_false_2 by done.
    by exists σ, ts.
Qed.

Lemma eval_outcome_is_harness_outcome_witness :
  ∃ σ' names,
    σ' !! 0%nat = Some (ObjList names) ∧
    eval (LM := ()) hendrycks_test_missing
      (λ names, if decide (names = []) then inl (ValueError "no tasks") else inr names)
      (λ _ task_dict limit, inr (length task_dict, limit))
      () (Some 0%nat) (Some 5) [ObjList ["wikitext"; "arc_easy"]%string]
    = (σ', match (if bool_decide ("hendrycks_test"%string ∈ ["wikitext"; "arc_easy"]%string)
                  then hendrycks_test_missing else inr []) with
           | inl e => inl e
           | inr _ =>
               match (if decide (names = []) then inl (ValueError "no tasks")
                      else inr names) with
               | inl e => inl e
               | inr task_dict => inr (length task_dict, Some 5)
               end
           end).
Proof.
  exact (eval_outcome_is_harness_outcome (LM := ()) hendrycks_test_missing
           (λ names, if decide (names = []) then inl (ValueError "no tasks") else inr names)
           (λ _ task_dict limit, inr (length task_dict, limit))
           () (Some 5) 0%nat ["wikitext"; "arc_easy"]%string
           [ObjList ["wikitext"; "arc_easy"]%string] eq_refl).
Defined.

(** What a call does to the list it was given.  When the list holds
    "hendrycks_test", its first occurrence is removed from the list object
    itself; the names of the hendrycks tasks are appended when their lookup
    returns them, and nothing is appended when the lookup raises.  When the
    list does not hold "hendrycks_test", the store is unchanged.  Nothing
    else in the store changes, whether the harness returns or raises. *)
Theorem eval_updates_callers_tasks {LM TaskDict Results : Type}
    (hendrycks_test_all_tasks : exn + list string)
    (get_task_dict : list string → exn + TaskDict)
    (evaluate : LM → TaskDict → option Z → exn + Results)
    (eval_wrapper : LM) (limit : option Z)
    (tasks : loc) (ts : list string) (σ : store) :
  σ !! tasks = Some (ObjList ts) →
  ("hendrycks_test"%string ∈ ts →
     ∃ pre post,
       ts = pre ++ ("hendrycks_test"%string :: post) ∧
       ("hendrycks_test"%string ∉ pre) ∧
       (eval hendrycks_test_all_tasks get_task_dict evaluate
          eval_wrapper (Some tasks) limit σ).1
         = <[tasks := ObjList (pre ++ post ++
                                 match hendrycks_test_all_tasks with
                                 | inl _ => []
                                 | inr all_tasks => all_tasks
                                 end)]> σ) ∧
  ("hendrycks_test"%string ∉ ts →
     (eval hendrycks_test_all_tasks get_task_dict evaluate
        eval_wrapper (Some tasks) limit σ).1 = σ).
Proof.
  intros Hts. rewrite (eval_run _ _ _ _ _ _ _ _ Hts). split.
  - intros Hin.
    destruct (list_remove_first _ _ Hin) as (pre & post & Hsplit & Hpre & ->).
    exists pre, post. split; [done |]. split; [done |].
    destruct hendrycks_test_all_tasks as [e | all_tasks]; cbn [fst].
    + by rewrite app_nil_r.
    + by rewrite app_assoc.
  - intros Hnotin. by rewrite (list_remove_absent _ _ Hnotin).
Qed.

Lemma eval_updates_callers_tasks_witness :
  let σ := [ObjList ["wikitext"; "hendrycks_test"; "arc_easy"]%string] in
  let run := eval (LM := ())
               (inr ["hendrycksTest-anatomy"; "hendrycksTest-virology"]%string)
               (λ names, inr names) (λ _ task_dict _, inr (length task_dict))
               () (Some 0%nat) (Some 5) σ in
  ("hendrycks_test"%string ∈ ["wikitext"; "hendrycks_test"; "arc_easy"]%string →
     ∃ pre post,
       ["wikitext"; "hendrycks_test"; "arc_easy"]%string
         = pre ++ ("hendrycks_test"%string :: post) ∧
       ("hendrycks_test"%string ∉ pre) ∧
       run.1 = <[0%nat := ObjList (pre ++ post ++
                   ["hendrycksTest-anatomy"; "hendrycksTest-virology"]%string)]> σ) ∧
  ("hendrycks_test"%string ∉ ["wikitext"; "hendrycks_test"; "arc_easy"]%string →
     run.1 = σ).
Proof.
  exact (eval_updates_callers_tasks
           (inr ["hendrycksTest-anatomy"; "hendrycksTest-virology"]%string)
           (λ names, inr names) (λ _ task_dict _, inr (length task_dict))
           () (Some 5) 0%nat ["wikitext"; "hendrycks_test"; "arc_easy"]%string
           [ObjList ["wikitext"; "hendrycks_test"; "arc_easy"]%string] eq_refl).
Defined.

(** Called without a tasks list, eval makes a new list ["wikitext"] and
    runs the harness on it: no object of the store is touched, the names of
    the hendrycks tasks play no part, and the outcome is that of the
    harness on ["wikitext"]. *)
Theorem eval_default_tasks {LM TaskDict Results : Type}
    (hendrycks_test_all_tasks : exn + list string)
    (get_task_dict : list string → exn + TaskDict)
    (evaluate : LM → TaskDict → option Z → exn + Results)
    (eval_wrapper : LM) (limit : option Z) (σ : store) :
  eval hendrycks_test_all_tasks get_task_dict evaluate eval_wrapper None limit σ
  = (σ ++ [ObjList ["wikitext"%string]],
     match get_task_dict ["wikitext"%string] with
     | inl e => inl e
     | inr task_dict => evaluate eval_wrapper task_dict limit
     end).
Proof.
  unfold eval.
  erewrite run_bind by reflexivity.
  assert (Hnew : (σ ++ [ObjList ["wikitext"%string]]) !! length σ
                 = Some (ObjList ["wikitext"%string]))
    by by apply list_lookup_middle.
  rewrite (run_bind _ _ _ _ _ (run_load_list _ _ _ Hnew)).
  rewrite bool_decide_eq_false_2.
  2:{ intros [Heq | Hin%elem_of_nil]%elem_of_cons; [discriminate | done]. }
  erewrite run_bind by reflexivity.
  by apply harness_calls_run.
Qed.

Example eval_example_default_tasks :
  eval (LM := ()) hendrycks_test_missing
    (λ names, inr names) (λ _ task_dict _, inr (length task_dict))
    () None None []
  = ([ObjList ["wikitext"]%string], inr 1%nat).
Proof. vm_compute. reflexivity. Qed.

(** On a list without repeated names, and when no hendrycks task is itself
    called "hendrycks_test", the expansion happens once: after a call the
    list no longer holds "hendrycks_test", and a second call on the same
    list, with any wrapper and limit, changes nothing in the store.  This
    holds also when the lookup of the hendrycks tasks raises. *)
Theorem eval_expands_once {LM TaskDict Results : Type}
    (hendrycks_test_all_tasks : exn + list string)
    (get_task_dict : list string → exn + TaskDict)
    (evaluate : LM → TaskDict → option Z → exn + Results)
    (eval_wrapper eval_wrapper' : LM) (limit limit' : option Z)
    (tasks : loc) (ts : list string) (σ : store) :
  σ !! tasks = Some (ObjList ts) →
  NoDup ts →
  (∀ all_tasks, hendrycks_test_all_tasks = inr all_tasks →
                "hendrycks_test"%string ∉ all_tasks) →
  ∃ σ1 r1 names,
    eval hendrycks_test_all_tasks get_task_dict evaluate
      eval_wrapper (Some tasks) limit σ = (σ1, r1) ∧
    σ1 !! tasks = Some (ObjList names) ∧
    ("hendrycks_test"%string ∉ names) ∧
    (eval hendrycks_test_all_tasks get_task_dict evaluate
       eval_wrapper' (Some tasks) limit' σ1).1 = σ1.
Proof.
  intros Hts Hnodup Hall.
  assert (Hlt : (tasks < length σ)%nat) by by eapply lookup_lt_Some.
  assert (Hagain : ∀ σ1 names,
            σ1 !! tasks = Some (ObjList names) →
            "hendrycks_test"%string ∉ names →
            (eval hendrycks_test_all_tasks get_task_dict evaluate
               eval_wrapper' (Some tasks) limit' σ1).1 = σ1).
  { intros σ1 names Hnames Hgone.
    by rewrite (eval_run _ _ _ _ _ _ _ _ Hnames), (list_remove_absent _ _ Hgone). }
  rewrite (eval_run _ _ _ _ _ _ _ _ Hts).
  destruct (decide ("hendrycks_test"%string ∈ ts)) as [Hin | Hnotin].
  - destruct (list_remove_first _ _ Hin) as (pre & post & -> & Hpre & ->).
    apply NoDup_app in Hnodup as (_ & _ & [Hpost _]%NoDup_cons).
    destruct hendrycks_test_all_tasks as [e | all_tasks]; eexists _, _, _;
      (split; [reflexivity |]);
      (split; [by apply list_lookup_insert_eq |]).
    + assert (Hgone : "hendrycks_test"%string ∉ pre ++ post).
      { rewrite elem_of_app. tauto. }
      split; [exact Hgone |].
      eapply Hagain; [by apply list_lookup_insert_eq | exact Hgone].
    + assert (Hgone : "hendrycks_test"%string ∉ (pre ++ post) ++ all_tasks).
      { specialize (Hall all_tasks eq_refl). rewrite !elem_of_app. tauto. }
      split; [exact Hgone |].
      eapply Hagain; [by apply list_lookup_insert_eq | exact Hgone].
  - rewrite (list_remove_absent _ _ Hnotin).
    eexists _, _, _. split; [reflexivity |]. split; [exact Hts |].
    split; [exact Hnotin |]. by eapply Hagain.
Qed.

Lemma eval_expands_once_witness :
  NoDup ["wikitext"; "hendrycks_test"; "arc_easy"]%string ∧
  (∀ all_tasks,
     inr ["hendrycksTest-anatomy"; "hendrycksTest-virology"]%string
       = (inr all_tasks : exn + list string) →
     "hendrycks_test"%string ∉ all_tasks) ∧
  ∃ σ1 r1 names,
    eval (LM := ()) (inr ["hendrycksTest-anatomy"; "hendrycksTest-virology"]%string)
      (λ names, inr names) (λ _ task_dict _, inr (length task_dict))
      () (Some 0%nat) (Some 5)
      [ObjList ["wikitext"; "hendrycks_test"; "arc_easy"]%string] = (σ1, r1) ∧
    σ1 !! 0%nat = Some (ObjList names) ∧
    ("hendrycks_test"%string ∉ names) ∧
    (eval (LM := ()) (inr ["hendrycksTest-anatomy"; "hendrycksTest-virology"]%string)
       (λ names, inr names) (λ _ task_dict _, inr (length task_dict))
       () (Some 0%nat) None σ1).1 = σ1.
Proof.
  assert (Hnodup : NoDup ["wikitext"; "hendrycks_test"; "arc_easy"]%string).
  { compute_done. }
  assert (Hall : ∀ all_tasks,
            inr ["hendrycksTest-anatomy"; "hendrycksTest-virology"]%string
              = (inr all_tasks : exn + list string) →
            "hendrycks_test"%string ∉ all_tasks).
  { intros all_tasks [= <-]. compute_done. }
  split; [exact Hnodup |]. split; [exact Hall |].
  exact (eval_expands_once (LM := ())
           (inr ["hendrycksTest-anatomy"; "hendrycksTest-virology"]%string)
           (λ names, inr names) (λ _ task_dict _, inr (length task_dict))
           () () (Some 5) None 0%nat ["wikitext"; "hendrycks_test"; "arc_easy"]%string
           [ObjList ["wikitext"; "hendrycks_test"; "arc_easy"]%string]
           eq_refl Hnodup Hall).
Defined.

(** ** Building the adapter and the command-line driver *)

Lemma run_bind_inv {A B} (m : Py A) (f : A → Py B) σ σ' b :
  (m ≫= f) σ = (σ', inr b) →
  ∃ σ1 a, m σ = (σ1, inr a) ∧ f a σ1 = (σ', inr b).
Proof.
  unfold mbind, Py_bind, py_bind.
  destruct (m σ) as [σ1 [e | a]]; [discriminate | eauto].
Qed.

Lemma run_lift_inv {A} (r : exn + A) σ σ' a :
  lift r σ = (σ', inr a) → σ' = σ ∧ r = inr a.
Proof. unfold lift. by intros [= -> ->]. Qed.

(** A call of eval that returns got its results from evaluate, on a task
    dictionary of get_task_dict. *)
Lemma eval_returns_inv {LM TaskDict Results : Type}
    (hendrycks_test_all_tasks : exn + list string)
    (get_task_dict : list string → exn + TaskDict)
    (evaluate : LM → TaskDict → option Z → exn + Results)
    (eval_wrapper : LM) (tasks : option loc) (limit : option Z)
    (σ σ' : store) (r : Results) :
  eval hendrycks_test_all_tasks get_task_dict evaluate eval_wrapper tasks limit σ
    = (σ', inr r) →
  ∃ names task_dict,
    get_task_dict names = inr task_dict ∧
    evaluate eval_wrapper task_dict limit = inr r.
Proof.
  unfold eval. intros Hrun.
  apply run_bind_inv in Hrun as (σ1 & l & _ & Hrun).
  apply run_bind_inv in Hrun as (σ2 & names0 & _ & Hrun).
  apply run_bind_inv in Hrun as (σ3 & [] & _ & Hrun).
  apply run_bind_inv in Hrun as (σ4 & names & _ & Hrun).
  apply run_bind_inv in Hrun as (σ5 & task_dict & [_ Hdict]%run_lift_inv & Hrun).
  apply run_bind_inv in Hrun as (σ6 & r' & [_ Hres]%run_lift_inv & Hrun).
  injection Hrun as _ <-. eauto.
Qed.

(** An adapter that gen_eval_wrapper returns is configured from the
    arguments: its tokenizer is the one loaded from args.tokenizer_path, its
    max_length is args.max_seq_length, or 2048 when that is None, and its
    device is the device its model was last moved to, cuda exactly when
    CUDA is available. *)
Theorem gen_eval_wrapper_configuration {Export : Type}
    (cuda_is_available : bool)
    (SentencePieceProcessor : string → exn + Tokenizer)
    (_prepare_for_llama_export : string → Namespace Export → Py loc)
    (module_eval : loc → Py loc) (module_to : loc → device → Py loc)
    (model_name : string) (args : Namespace Export)
    (σ σ' : store) (w : GPTFastEvalWrapper) :
  gen_eval_wrapper cuda_is_available SentencePieceProcessor
    _prepare_for_llama_export module_eval module_to model_name args σ
    = (σ', inr w) →
  SentencePieceProcessor (args_tokenizer_path args) = inr (_tokenizer w) ∧
  max_length w = match args_max_seq_length args with
                 | None => 2048
                 | Some m => m
                 end ∧
  device_of w = (if cuda_is_available then cuda else cpu) ∧
  ∃ σ0 module, module_to module (device_of w) σ0 = (σ', inr (_model w)).
Proof.
  unfold gen_eval_wrapper. intros Hrun.
  apply run_bind_inv in Hrun as (σ1 & tokenizer & [_ Htok]%run_lift_inv & Hrun).
  apply run_bind_inv in Hrun as (σ2 & manager_model & _ & Hrun).
  apply run_bind_inv in Hrun as (σ3 & model & Hmove & Hrun).
  injection Hrun as <- <-.
  split; [done |]. split; [done |]. split; [done |].
  cbn. destruct cuda_is_available.
  - apply run_bind_inv in Hmove as (σ0 & evaluated & _ & Hmove). eauto.
  - eauto.
Qed.

Lemma gen_eval_wrapper_configuration_witness :
  (inr example_tokenizer : exn + Tokenizer)
    = inr (_tokenizer (GPTFastEvalWrapper__init__ true 0%nat example_tokenizer (Some 128))) ∧
  max_length (GPTFastEvalWrapper__init__ true 0%nat example_tokenizer (Some 128)) = 128 ∧
  device_of (GPTFastEvalWrapper__init__ true 0%nat example_tokenizer (Some 128)) = cuda ∧
  ∃ σ0 module,
    example_module_to module
      (device_of (GPTFastEvalWrapper__init__ true 0%nat example_tokenizer (Some 128))) σ0
    = ([ObjModule (mk_nn_Module None)],
       inr (_model (GPTFastEvalWrapper__init__ true 0%nat example_tokenizer (Some 128)))).
Proof.
  exact (gen_eval_wrapper_configuration true
           (λ _, inr example_tokenizer)
           example_export example_module_eval example_module_to
           "llama2" (mkNamespace "tokenizer.model" (Some 128) None (Some 5) ())
           [] [ObjModule (mk_nn_Module None)]
           (GPTFastEvalWrapper__init__ true 0%nat example_tokenizer (Some 128))
           eq_refl).
Defined.

(** Without CUDA gen_eval_wrapper never calls eval() on the model: whatever
    eval() would do, the run is the same; the model is only moved to the
    CPU. *)
Remark gen_eval_wrapper_cpu_skips_eval {Export : Type}
    (SentencePieceProcessor : string → exn + Tokenizer)
    (_prepare_for_llama_export : string → Namespace Export → Py loc)
    (module_eval module_eval' : loc → Py loc) (module_to : loc → device → Py loc)
    (model_name : string) (args : Namespace Export) (σ : store) :
  gen_eval_wrapper false SentencePieceProcessor
    _prepare_for_llama_export module_eval module_to model_name args σ
  = gen_eval_wrapper false SentencePieceProcessor
      _prepare_for_llama_export module_eval' module_to model_name args σ.
Proof. reflexivity. Qed.

(** When eval_llama gets to print, it prints one line per task of the
    results of the harness, in the order of the harness, each line being
    the task, ": " and the rendering of its metrics; the results are those of
    evaluate on the adapter that gen_eval_wrapper built from the same
    arguments, with args.limit. *)
Theorem eval_llama_prints_results {Export TaskDict Metrics Other : Type}
    (cuda_is_available : bool)
    (SentencePieceProcessor : string → exn + Tokenizer)
    (_prepare_for_llama_export : string → Namespace Export → Py loc)
    (module_eval : loc → Py loc) (module_to : loc → device → Py loc)
    (hendrycks_test_all_tasks : exn + list string)
    (get_task_dict : list string → exn + TaskDict)
    (evaluate : GPTFastEvalWrapper → TaskDict → option Z
                → exn + EvalResults Metrics Other)
    (py_str : Metrics → string)
    (model_name : string) (args : Namespace Export)
    (σ σ' : store) (lines : list string) :
  eval_llama cuda_is_available SentencePieceProcessor _prepare_for_llama_export
    module_eval module_to hendrycks_test_all_tasks get_task_dict evaluate py_str
    model_name args σ = (σ', inr lines) →
  ∃ σ1 eval_wrapper task_dict eval_results,
    gen_eval_wrapper cuda_is_available SentencePieceProcessor
      _prepare_for_llama_export module_eval module_to model_name args σ
      = (σ1, inr eval_wrapper) ∧
    evaluate eval_wrapper task_dict (args_limit args) = inr eval_results ∧
    length lines = length (er_results eval_results) ∧
    ∀ (i : nat) task res,
      er_results eval_results !! i = Some (task, res) →
      lines !! i = Some (task +:+ ": " +:+ py_str res)%string.
Proof.
  unfold eval_llama. intros Hrun.
  apply run_bind_inv in Hrun as (σ1 & eval_wrapper & Hgen & Hrun).
  apply run_bind_inv in Hrun as (σ2 & eval_results & Heval & Hrun).
  apply eval_returns_inv in Heval as (names & task_dict & _ & Heval).
  injection Hrun as _ <-.
  exists σ1, eval_wrapper, task_dict, eval_results.
  split; [exact Hgen |]. split; [exact Heval |].
  split; [by rewrite length_fmap |].
  intros i task res Hi. by rewrite list_lookup_fmap, Hi.
Qed.

Lemma eval_llama_prints_results_witness :
  ∃ σ1 eval_wrapper task_dict eval_results,
    gen_eval_wrapper false (λ _, inr example_tokenizer)
      example_export example_module_eval example_module_to
      "llama2" (mkNamespace "tokenizer.model" None (Some 0%nat) (Some 5) ())
      [ObjList ["wikitext"; "arc"]%string]
      = (σ1, inr eval_wrapper) ∧
    example_evaluate eval_wrapper task_dict (Some 5) = inr eval_results ∧
    length ["wikitext: eight"; "arc: other"]%string = length (er_results eval_results) ∧
    ∀ (i : nat) task res,
      er_results eval_results !! i = Some (task, res) →
      ["wikitext: eight"; "arc: other"]%string !! i
        = Some (task +:+ ": " +:+ example_str res)%string.
Proof.
  exact (eval_llama_prints_results false (λ _, inr example_tokenizer)
           example_export example_module_eval example_module_to
           hendrycks_test_missing (λ names, inr names)
           example_evaluate example_str
           "llama2" (mkNamespace "tokenizer.model" None (Some 0%nat) (Some 5) ())
           [ObjList ["wikitext"; "arc"]%string]
           [ObjList ["wikitext"; "arc"]%string; ObjModule (mk_nn_Module None)]
           ["wikitext: eight"; "arc: other"]%string eq_refl).
Defined.

(** ** More on the prefill buffer builder *)











(** A max_new_tokens below -T asks torch.empty for a negative size: the call
    raises before anything is allocated, whatever max_seq_length says, and
    with a RuntimeError when the size is a 64-bit int. *)
Theorem prefill_negative_size_raises uninit memory σ model prompt p N msl bs :
  σ !! prompt = Some (ObjTensor p) →
  Z.of_nat (length (data p)) + N < 0 →
  ∃ e,
    setup_cache_padded_seq_input_pos_max_seq_length_for_prefill
      uninit memory model prompt N msl bs σ = (σ, inl e) ∧
    (- 2 ^ 63 ≤ Z.of_nat (length (data p)) + N → ∃ msg, e = RuntimeError msg).
Proof.
  intros Hp Hneg.
  unfold setup_cache_padded_seq_input_pos_max_seq_length_for_prefill.
  rewrite (run_bind _ _ _ _ _ (run_load_tensor _ _ _ Hp)). cbn zeta.
  unfold torch_empty.
  destruct (fits torch_int64 (Z.of_nat (length (data p)) + N)) eqn:Hfits; cbn [negb].
  - rewrite (proj2 (Z.ltb_lt _ _) Hneg).
    eexists. split; [by apply run_bind_raise | eauto].
  - eexists. split; [by apply run_bind_raise |].
    intros Hlow. exfalso. revert Hfits. unfold fits. cbn [dtype_min dtype_max].
    rewrite (proj2 (Z.leb_le _ _)), (proj2 (Z.leb_le _ _)) by lia. discriminate.
Qed.

Lemma prefill_negative_size_raises_witness :
  Z.of_nat (length [5; 6; 7]) + (-4) < 0 ∧
  ∃ e,
    setup_cache_padded_seq_input_pos_max_seq_length_for_prefill (λ _, 0) example_memory
      0%nat 1%nat (-4) (Some 10) default_block_size
      [ObjModule (mk_nn_Module None); ObjTensor (mkTensor [5; 6; 7] torch_int64 cpu)]
    = ([ObjModule (mk_nn_Module None); ObjTensor (mkTensor [5; 6; 7] torch_int64 cpu)],
       inl e) ∧
    (- 2 ^ 63 ≤ Z.of_nat (length [5; 6; 7]) + (-4) → ∃ msg, e = RuntimeError msg).
Proof.
  split; [cbn; lia |].
  apply (prefill_negative_size_raises (λ _, 0) example_memory
           [ObjModule (mk_nn_Module None); ObjTensor (mkTensor [5; 6; 7] torch_int64 cpu)]
           0%nat 1%nat (mkTensor [5; 6; 7] torch_int64 cpu) (-4) (Some 10)
           default_block_size);
    [reflexivity | cbn; lia].
Defined.

(** With a prompt of two or more tokens (fewer than 2^63, as every tensor
    has) and a negative max_new_tokens of at most T in size, the buffer is
    shorter than the prompt and the call raises RuntimeError, from the
    assignment empty[:T] = prompt if not already from torch.empty: nothing
    is returned, and every object of the store is as it was. *)
Theorem prefill_short_buffer_raises uninit memory σ model prompt p N msl bs :
  σ !! prompt = Some (ObjTensor p) →
  (2 ≤ length (data p))%nat →
  Z.of_nat (length (data p)) < 2 ^ 63 →
  - Z.of_nat (length (data p)) ≤ N < 0 →
  ∃ σ' msg,
    setup_cache_padded_seq_input_pos_max_seq_length_for_prefill
      uninit memory model prompt N msl bs σ = (σ', inl (RuntimeError msg)) ∧
    σ `prefix_of` σ'.
Proof.
  intros Hp HT Hint HN.
  unfold setup_cache_padded_seq_input_pos_max_seq_length_for_prefill.
  rewrite (run_bind _ _ _ _ _ (run_load_tensor _ _ _ Hp)). cbn zeta.
  set (T := length (data p)) in *.
  set (E := mkTensor (uninit <$> seq 0 (Z.to_nat (Z.of_nat T + N))) (t_dtype p) (t_device p)).
  assert (Hempty : (∃ msg, torch_empty uninit memory (Z.of_nat T + N) (t_dtype p) (t_device p) σ
                           = (σ, inl (RuntimeError msg))) ∨
                   torch_empty uninit memory (Z.of_nat T + N) (t_dtype p) (t_device p) σ
                   = (σ ++ [ObjTensor E], inr (length σ))).
  { unfold torch_empty, fits. cbn [dtype_min dtype_max].
    rewrite (proj2 (Z.leb_le _ _)), (proj2 (Z.leb_le _ _)) by lia. cbn [andb negb].
    rewrite (proj2 (Z.ltb_ge _ _)) by lia.
    destruct ((2 ^ 63 <=? (Z.of_nat T + N) * itemsize (t_dtype p))
              || (Z.of_N (memory (t_device p)) <? (Z.of_nat T + N) * itemsize (t_dtype p)));
      [left; by eexists | by right]. }
  destruct Hempty as [[msg Hempty] | Hempty].
  { exists σ, msg. split; [by apply run_bind_raise | done]. }
  rewrite (run_bind _ _ _ _ _ Hempty).
  exists (σ ++ [ObjTensor E]). eexists.
  split; [| by eexists].
  apply run_bind_raise.
  unfold setitem_upto.
  rewrite (run_bind _ _ (σ ++ [ObjTensor E]) (σ ++ [ObjTensor E]) E)
    by (apply run_load_tensor; by apply list_lookup_middle).
  rewrite (run_bind _ _ (σ ++ [ObjTensor E]) (σ ++ [ObjTensor E]) p)
    by (apply run_load_tensor; by apply lookup_app_l_Some).
  cbn zeta.
  assert (Hk : slice_stop (length (data E)) (Z.of_nat T) = Z.to_nat (Z.of_nat T + N)).
  { subst E. cbn [data]. rewrite length_fmap, length_seq.
    unfold slice_stop.
    destruct (Z.ltb_spec (Z.of_nat T) 0); lia. }
  rewrite Hk, decide_False by (fold T; lia).
  fold T in HT.
  destruct (data p) as [| x [| y tl]] eqn:Hdata; cbn in T; subst T;
    [cbn in HT; lia | cbn in HT; lia | reflexivity].
Qed.

Lemma prefill_short_buffer_raises_witness :
  (2 ≤ length [5; 6; 7])%nat ∧
  Z.of_nat (length [5; 6; 7]) < 2 ^ 63 ∧
  - Z.of_nat (length [5; 6; 7]) ≤ -1 < 0 ∧
  ∃ σ' msg,
    setup_cache_padded_seq_input_pos_max_seq_length_for_prefill (λ _, 0) example_memory
      0%nat 1%nat (-1) None default_block_size
      [ObjModule (mk_nn_Module None); ObjTensor (mkTensor [5; 6; 7] torch_int64 cpu)]
    = (σ', inl (RuntimeError msg)) ∧
    [ObjModule (mk_nn_Module None); ObjTensor (mkTensor [5; 6; 7] torch_int64 cpu)]
      `prefix_of` σ'.
Proof.
  split; [cbn; lia |]. split; [cbn; lia |]. split; [cbn; lia |].
  apply (prefill_short_buffer_raises (λ _, 0) example_memory
           [ObjModule (mk_nn_Module None); ObjTensor (mkTensor [5; 6; 7] torch_int64 cpu)]
           0%nat 1%nat (mkTensor [5; 6; 7] torch_int64 cpu) (-1) None
           default_block_size);
    [reflexivity | cbn; lia | cbn; lia | cbn; lia].
Defined.


